(** * NoClip.js: a shallow embedding of the NoClipSystem controller

    The class [NoClipSystem] of [src/NoClip.js] is embedded method by
    method.  JavaScript numbers are IEEE 754 binary64 values, so the
    axis speeds, the coordinates and the configuration constants are
    primitive floats and [*], [+], [-] and [<] are the primitive float
    operations.  Millisecond timestamps and control identifiers are
    integers.  References that the code tests for truthiness
    ([this.camera], [this.targetEntity], [mp.players.local.vehicle],
    the result of [mp.cameras.new], [entity.position] in
    [setEntityToGround]) are options.

    The host ([mp], [Date]) is a record of what each host read returns
    while one callback runs; the clock does not advance within a
    callback.  A callback reads an entity's position in one place only:
    the render callback in [update], which uses the value without a
    test ([position]), and the TOGGLE callback in [setEntityToGround],
    which tests it first ([entity_position]).  The host calls with an effect are collected, in order,
    in the list of calls every method returns.  [getStatus], which only
    formats the fields, is not embedded. *)

From Stdlib Require Import ZArith Bool List Lia PrimFloat.
Import ListNotations.

Set Implicit Arguments.
Local Set Warnings "-inexact-float".

(** ** Host objects *)

Record Vector3 : Set := mkVector3 { x : float; y : float; z : float }.

(** A camera object returned by [mp.cameras.new]. *)
Inductive Camera : Set := CameraObj (id : Z).

(** The two host objects the controller holds a reference to: the local
    player ([mp.players.local]) and a vehicle object, identified by its
    [handle]. *)
Inductive Entity : Set :=
| Player
| Vehicle (handle : Z).

(** Truthiness of a reference that is an object or null. *)
Definition truthy {A : Type} (o : option A) : bool :=
  match o with
  | Some _ => true
  | None => false
  end.

(** What the host answers when a callback runs. *)
Record Mp : Type := mkMp {
  now : Z;                                   (* Date.now() *)
  cameras_new : option Camera;               (* mp.cameras.new('gameplay') *)
  getDirection : Camera -> Vector3;          (* camera.getDirection() *)
  local_vehicle : option Z;                  (* mp.players.local.vehicle, by handle *)
  position : Entity -> Vector3;              (* this.targetEntity.position, which update
                                                uses without a test *)
  isControlPressed : Z -> bool;              (* mp.game.controls.isControlPressed(0, id) *)
  getGroundZFor3dCoord : float -> float -> float -> float;
                                             (* mp.game.gameplay.getGroundZFor3dCoord(x, y, z, 0.0, false) *)
  entity_position : Entity -> option Vector3 (* entity.position as setEntityToGround reads
                                                and tests it: a Vector3 or undefined *)
}.

(** Host calls with an effect, as the controller issues them. *)
Inductive Call : Set :=
| CamerasNew
| FreezePosition (e : Entity) (toggle : bool)
| SetCollision (e : Entity) (toggle keepPhysics : bool)
| GetGroundZ (gx gy gz : float)
| SetCoordsNoOffset (e : Entity) (cx cy cz : float).

(** ** The fields of a NoClipSystem object *)

Record Speeds : Set := mkSpeeds { slow : float; normal : float; fast : float }.

Record Config : Set := mkConfig {
  baseSpeed : float;
  maxSpeed : float;
  acceleration : float;
  fastAcceleration : float;
  tickRate : Z;
  speeds : Speeds
}.

Record State : Set := mkState {
  forward : float;
  strafe : float;
  vertical : float;
  lastUpdate : Z
}.

Record Controls : Set := mkControls {
  TOGGLE : Z; FORWARD : Z; BACKWARD : Z; LEFT : Z; RIGHT : Z;
  UP : Z; DOWN : Z; FAST : Z; SLOW : Z
}.

Record NoClipSystem : Set := mkNoClipSystem {
  isActive : bool;
  config : Config;
  state : State;
  controls : Controls;
  camera : option Camera;
  targetEntity : option Entity
}.

(** Field assignments. *)
Definition set_isActive (b : bool) (self : NoClipSystem) : NoClipSystem :=
  mkNoClipSystem b (config self) (state self) (controls self)
                 (camera self) (targetEntity self).

Definition set_state (st : State) (self : NoClipSystem) : NoClipSystem :=
  mkNoClipSystem (isActive self) (config self) st (controls self)
                 (camera self) (targetEntity self).

Definition set_camera (c : option Camera) (self : NoClipSystem) : NoClipSystem :=
  mkNoClipSystem (isActive self) (config self) (state self) (controls self)
                 c (targetEntity self).

Definition set_targetEntity (e : option Entity) (self : NoClipSystem) : NoClipSystem :=
  mkNoClipSystem (isActive self) (config self) (state self) (controls self)
                 (camera self) e.

(** [this.state[axis]], for the three keys the code uses. *)
Inductive Axis : Set := AxForward | AxStrafe | AxVertical.

Definition axis_get (a : Axis) (st : State) : float :=
  match a with
  | AxForward => forward st
  | AxStrafe => strafe st
  | AxVertical => vertical st
  end.

Definition axis_set (a : Axis) (v : float) (st : State) : State :=
  match a with
  | AxForward => mkState v (strafe st) (vertical st) (lastUpdate st)
  | AxStrafe => mkState (forward st) v (vertical st) (lastUpdate st)
  | AxVertical => mkState (forward st) (strafe st) v (lastUpdate st)
  end.

Definition set_lastUpdate (t : Z) (st : State) : State :=
  mkState (forward st) (strafe st) (vertical st) t.

(** ** constructor *)

Definition default_config : Config :=
  mkConfig 2.0 8.0 1.025 1.05 0 (mkSpeeds 0.02 0.2 1.0).

Definition default_controls : Controls :=
  mkControls 0x71 0x20 0x21 0x22 0x23 0x141 0x146 0x18 0x19.

(** [new NoClipSystem()], run when [Date.now()] is [t].  [init] only
    registers the two callbacks below ([toggle] on the TOGGLE key,
    [render] on every frame). *)
Definition new_NoClipSystem (t : Z) : NoClipSystem :=
  mkNoClipSystem false default_config (mkState 2.0 2.0 2.0 t)
                 default_controls None None.

(** ** Target resolution *)

(** [mp.players.local.vehicle && mp.players.local.vehicle.handle !== 0] *)
Definition isPlayerInVehicle (mp : Mp) : bool :=
  match local_vehicle mp with
  | Some h => negb (Z.eqb h 0)
  | None => false
  end.

Definition getTargetEntity (mp : Mp) : option Entity :=
  if isPlayerInVehicle mp then option_map Vehicle (local_vehicle mp)
  else Some Player.

(** ** resetState, setEntityToGround *)

Definition resetState (self : NoClipSystem) : NoClipSystem :=
  let b := baseSpeed (config self) in
  set_state (mkState b b b (lastUpdate (state self))) self.

(** The guard [!entity || !entity.position] returns before any host
    call when the entity is null or its position is missing. *)
Definition setEntityToGround (mp : Mp) (entity : option Entity) : list Call :=
  match entity with
  | None => []
  | Some e =>
      match entity_position mp e with
      | None => []
      | Some p =>
          let groundZ := getGroundZFor3dCoord mp (x p) (y p) (z p) in
          [GetGroundZ (x p) (y p) (z p); SetCoordsNoOffset e (x p) (y p) groundZ]
      end
  end.

(** ** enable, disable, toggle, destroy *)

(** [enable], with the method behind [this.getTargetEntity()] as a
    parameter: the call is dispatched on [this]. *)
Definition enable_with (resolve : Mp -> option Entity)
    (mp : Mp) (self : NoClipSystem) : NoClipSystem * list Call :=
  let self := set_targetEntity (resolve mp) self in
  let self := set_camera (cameras_new mp) self in
  match camera self with
  | None => (set_isActive false self, [CamerasNew])
  | Some _ =>
      match targetEntity self with
      | Some target =>
          if isPlayerInVehicle mp then
            (self, [CamerasNew; FreezePosition target true;
                    SetCollision target false false])
          else
            (self, [CamerasNew; FreezePosition Player true;
                    SetCollision Player false false])
      | None => (self, [CamerasNew])
      end
  end.

Definition enable : Mp -> NoClipSystem -> NoClipSystem * list Call :=
  enable_with getTargetEntity.

Definition disable (mp : Mp) (self : NoClipSystem) : NoClipSystem * list Call :=
  let calls :=
    match targetEntity self with
    | Some target =>
        if isPlayerInVehicle mp then
          [FreezePosition target false; SetCollision target true true]
        else
          [FreezePosition Player false; SetCollision Player true true]
            ++ setEntityToGround mp (Some Player)
    | None => []
    end in
  (set_camera None (set_targetEntity None (resetState self)), calls).

Definition toggle (mp : Mp) (self : NoClipSystem) : NoClipSystem * list Call :=
  let self := set_isActive (negb (isActive self)) self in
  if isActive self then enable mp self else disable mp self.

Definition destroy (mp : Mp) (self : NoClipSystem) : NoClipSystem * list Call :=
  if isActive self then disable mp self else (self, []).

(** ** The per-frame update *)

Definition shouldUpdate (mp : Mp) (self : NoClipSystem) : bool :=
  isActive self
  && truthy (camera self)
  && truthy (targetEntity self)
  && Z.gtb (now mp - lastUpdate (state self)) (tickRate (config self)).

Definition getCurrentSpeed (mp : Mp) (self : NoClipSystem) : float :=
  if isControlPressed mp (FAST (controls self)) then
    fast (speeds (config self))
  else if isControlPressed mp (SLOW (controls self)) then
    slow (speeds (config self))
  else
    normal (speeds (config self)).

Definition accelerateAxis (axis : Axis) (self : NoClipSystem) : NoClipSystem :=
  if ltb (axis_get axis (state self)) (maxSpeed (config self)) then
    set_state (axis_set axis
                 (mul (axis_get axis (state self)) (acceleration (config self)))
                 (state self)) self
  else self.

(** The handlers update [this.state] and the [position] object they are
    given; both come back as the result. *)
Definition handleForwardMovement (mp : Mp) (self : NoClipSystem)
    (pos direction : Vector3) (speed : float) : NoClipSystem * Vector3 :=
  if isControlPressed mp (FORWARD (controls self)) then
    let self := accelerateAxis AxForward self in
    let movement := mul (forward (state self)) speed in
    (self, mkVector3 (add (x pos) (mul (x direction) movement))
                     (add (y pos) (mul (y direction) movement))
                     (add (z pos) (mul (z direction) movement)))
  else if isControlPressed mp (BACKWARD (controls self)) then
    let self := accelerateAxis AxForward self in
    let movement := mul (forward (state self)) speed in
    (self, mkVector3 (sub (x pos) (mul (x direction) movement))
                     (sub (y pos) (mul (y direction) movement))
                     (sub (z pos) (mul (z direction) movement)))
  else
    (set_state (axis_set AxForward (baseSpeed (config self)) (state self)) self,
     pos).

Definition handleStrafeMovement (mp : Mp) (self : NoClipSystem)
    (pos direction : Vector3) (speed : float) : NoClipSystem * Vector3 :=
  let strafeDirection_x := opp (y direction) in
  let strafeDirection_y := x direction in
  if isControlPressed mp (LEFT (controls self)) then
    let self := accelerateAxis AxStrafe self in
    let movement := mul (strafe (state self)) speed in
    (self, mkVector3 (add (x pos) (mul strafeDirection_x movement))
                     (add (y pos) (mul strafeDirection_y movement))
                     (z pos))
  else if isControlPressed mp (RIGHT (controls self)) then
    let self := accelerateAxis AxStrafe self in
    let movement := mul (strafe (state self)) speed in
    (self, mkVector3 (sub (x pos) (mul strafeDirection_x movement))
                     (sub (y pos) (mul strafeDirection_y movement))
                     (z pos))
  else
    (set_state (axis_set AxStrafe (baseSpeed (config self)) (state self)) self,
     pos).

Definition handleVerticalMovement (mp : Mp) (self : NoClipSystem)
    (pos : Vector3) (speed : float) : NoClipSystem * Vector3 :=
  if isControlPressed mp (UP (controls self)) then
    let self := accelerateAxis AxVertical self in
    (self, mkVector3 (x pos) (y pos)
                     (add (z pos) (mul (vertical (state self)) speed)))
  else if isControlPressed mp (DOWN (controls self)) then
    let self := accelerateAxis AxVertical self in
    (self, mkVector3 (x pos) (y pos)
                     (sub (z pos) (mul (vertical (state self)) speed)))
  else
    (set_state (axis_set AxVertical (baseSpeed (config self)) (state self)) self,
     pos).

Definition handleMovement (mp : Mp) (self : NoClipSystem)
    (pos direction : Vector3) (speed : float) : NoClipSystem * Vector3 :=
  let (self, pos) := handleForwardMovement mp self pos direction speed in
  let (self, pos) := handleStrafeMovement mp self pos direction speed in
  handleVerticalMovement mp self pos speed.

(** [None] is the TypeError of calling [setCoordsNoOffset] on a null
    [this.targetEntity]. *)
Definition updateEntityPosition (mp : Mp) (self : NoClipSystem)
    (pos : Vector3) : option (list Call) :=
  if isPlayerInVehicle mp then
    match targetEntity self with
    | Some target => Some [SetCoordsNoOffset target (x pos) (y pos) (z pos)]
    | None => None
    end
  else
    Some [SetCoordsNoOffset Player (x pos) (y pos) (z pos)].

(** [None] is the TypeError of reading a property of a null
    [this.camera] or [this.targetEntity]. *)
Definition update (mp : Mp) (self : NoClipSystem)
    : option (NoClipSystem * list Call) :=
  let currentSpeed := getCurrentSpeed mp self in
  match camera self with
  | None => None
  | Some cam =>
      let direction := getDirection mp cam in
      match targetEntity self with
      | None => None
      | Some target =>
          let pos := position mp target in
          let (self, pos) := handleMovement mp self pos direction currentSpeed in
          match updateEntityPosition mp self pos with
          | None => None
          | Some calls =>
              Some (set_state (set_lastUpdate (now mp) (state self)) self, calls)
          end
      end
  end.

(** The callback registered by [bindRender]. *)
Definition render (mp : Mp) (self : NoClipSystem)
    : option (NoClipSystem * list Call) :=
  if shouldUpdate mp self then update mp self else Some (self, []).

(** ** The two callbacks, driven by the host *)

Inductive Event : Set :=
| KeyToggle      (* down-edge of the TOGGLE key: [toggle] *)
| Render.        (* one 'render' event *)

Definition step (ev : Event) (mp : Mp) (self : NoClipSystem)
    : option (NoClipSystem * list Call) :=
  match ev with
  | KeyToggle => Some (toggle mp self)
  | Render => render mp self
  end.

(** Runs the callbacks for a sequence of events, each with the host as
    it is when the event fires. *)
Fixpoint run (evs : list (Event * Mp)) (self : NoClipSystem)
    : option (NoClipSystem * list Call) :=
  match evs with
  | [] => Some (self, [])
  | (ev, mp) :: rest =>
      match step ev mp self with
      | None => None
      | Some (self, calls) =>
          match run rest self with
          | None => None
          | Some (self, calls') => Some (self, calls ++ calls')
          end
      end
  end.

(** ** Counting calls in a trace *)

Definition is_ground_query (c : Call) : bool :=
  match c with GetGroundZ _ _ _ => true | _ => false end.

Definition is_position_write (c : Call) : bool :=
  match c with SetCoordsNoOffset _ _ _ _ => true | _ => false end.

Definition is_freeze_or_collision (c : Call) : bool :=
  match c with
  | FreezePosition _ _ | SetCollision _ _ _ => true
  | _ => false
  end.

Definition count (p : Call -> bool) (calls : list Call) : nat :=
  length (filter p calls).

(** ** Concrete hosts, for evaluating the code *)

(** A host at time [t] whose camera service answers [cam], whose player
    sits in the vehicle [veh] (if any), with the controls [keys] held,
    the camera looking along the x axis, every entity at the origin and
    the ground at height 0. *)
Definition host (t : Z) (cam : option Camera) (veh : option Z)
    (keys : list Z) : Mp :=
  mkMp t cam (fun _ => mkVector3 1 0 0) veh (fun _ => mkVector3 0 0 0)
       (fun id => existsb (Z.eqb id) keys) (fun _ _ _ => 0%float)
       (fun _ => Some (mkVector3 0 0 0)).

(** [n] consecutive render events at times [t+1], ..., [t+n], the
    player on foot, with the controls [keys] held throughout. *)
Fixpoint frames_holding (keys : list Z) (t : Z) (n : nat)
    : list (Event * Mp) :=
  match n with
  | O => []
  | S k => (Render, host (t + 1) None None keys)
           :: frames_holding keys (t + 1) k
  end.

(** The session used below: the object is constructed at time 0, the
    TOGGLE key goes down at time 0 with a camera available and the
    player on foot, and then [n] frames follow with [keys] held. *)
Definition session (keys : list Z) (n : nat) : option (NoClipSystem * list Call) :=
  run ((KeyToggle, host 0 (Some (CameraObj 1)) None []) :: frames_holding keys 0 n)
      (new_NoClipSystem 0).

(** ** The speed dynamics of one tick, in closed form *)

(** What [accelerateAxis] does to the speed of its axis. *)
Definition accelerate (cfg : Config) (v : float) : float :=
  if ltb v (maxSpeed cfg) then mul v (acceleration cfg) else v.

(** Whether one of the two controls of an axis is pressed. *)
Definition driven (axis : Axis) (mp : Mp) (ks : Controls) : bool :=
  match axis with
  | AxForward => isControlPressed mp (FORWARD ks)
                 || isControlPressed mp (BACKWARD ks)
  | AxStrafe => isControlPressed mp (LEFT ks)
                || isControlPressed mp (RIGHT ks)
  | AxVertical => isControlPressed mp (UP ks)
                  || isControlPressed mp (DOWN ks)
  end.

Definition next_speed (cfg : Config) (held : bool) (v : float) : float :=
  if held then accelerate cfg v else baseSpeed cfg.

(** The fields of the object that a tick leaves alone. *)
Definition same_session (s s' : NoClipSystem) : Prop :=
  isActive s' = isActive s /\ config s' = config s /\
  controls s' = controls s /\ camera s' = camera s /\
  targetEntity s' = targetEntity s.

(** ** Holding an axis for consecutive ticks *)

(** [n] applications of [accelerateAxis] to a speed. *)
Fixpoint accelerate_n (cfg : Config) (n : nat) (v : float) : float :=
  match n with
  | O => v
  | S k => accelerate_n cfg k (accelerate cfg v)
  end.

(** [frames] are render events on each of which the tick runs (the clock
    has advanced by more than [tickRate] since the previous update, at
    [last]) while a control of [axis] is pressed. *)
Fixpoint held_ticks (axis : Axis) (cfg : Config) (ks : Controls) (last : Z)
    (frames : list (Event * Mp)) : Prop :=
  match frames with
  | [] => True
  | (ev, mp) :: rest =>
      ev = Render /\ (now mp - last > tickRate cfg)%Z /\
      driven axis mp ks = true /\
      held_ticks axis cfg ks (now mp) rest
  end.

(** ** The acceleration curve of the specification *)

Definition fmin (a b : float) : float := if ltb a b then a else b.

(** Section 4.2 of the specification: a driven axis below the ceiling
    goes to [min(s * accelerationFactor, maxSpeed)], a driven axis at or
    above it keeps its speed. *)
Definition spec_accelerate (cfg : Config) (s : float) : float :=
  if ltb s (maxSpeed cfg) then fmin (mul s (acceleration cfg)) (maxSpeed cfg)
  else s.

(** The speed after [n] driven ticks from [baseSpeed], by that rule. *)
Fixpoint spec_held_speed (cfg : Config) (n : nat) : float :=
  match n with
  | O => baseSpeed cfg
  | S k => spec_accelerate cfg (spec_held_speed cfg k)
  end.

(** ** The activation invariant along runs *)

Definition activation_inv (self : NoClipSystem) : Prop :=
  (isActive self = true <-> camera self <> None) /\
  (isActive self = true -> targetEntity self <> None).

(** ** One axis of a tick *)

(** The handler that [handleMovement] runs for an axis. *)
Definition handleAxis (axis : Axis) (mp : Mp) (self : NoClipSystem)
    (pos direction : Vector3) (speed : float) : NoClipSystem * Vector3 :=
  match axis with
  | AxForward => handleForwardMovement mp self pos direction speed
  | AxStrafe => handleStrafeMovement mp self pos direction speed
  | AxVertical => handleVerticalMovement mp self pos speed
  end.

(** [pos] moved by [movement] along the direction of a driven axis: the
    first control of the axis adds, the second subtracts. *)
Definition displaced (axis : Axis) (mp : Mp) (ks : Controls)
    (pos direction : Vector3) (movement : float) : Vector3 :=
  match axis with
  | AxForward =>
      if isControlPressed mp (FORWARD ks) then
        mkVector3 (add (x pos) (mul (x direction) movement))
                  (add (y pos) (mul (y direction) movement))
                  (add (z pos) (mul (z direction) movement))
      else
        mkVector3 (sub (x pos) (mul (x direction) movement))
                  (sub (y pos) (mul (y direction) movement))
                  (sub (z pos) (mul (z direction) movement))
  | AxStrafe =>
      if isControlPressed mp (LEFT ks) then
        mkVector3 (add (x pos) (mul (opp (y direction)) movement))
                  (add (y pos) (mul (x direction) movement))
                  (z pos)
      else
        mkVector3 (sub (x pos) (mul (opp (y direction)) movement))
                  (sub (y pos) (mul (x direction) movement))
                  (z pos)
  | AxVertical =>
      if isControlPressed mp (UP ks) then
        mkVector3 (x pos) (y pos) (add (z pos) movement)
      else
        mkVector3 (x pos) (y pos) (sub (z pos) movement)
  end.

(** Where the handler of an axis leaves the position: moved by the
    accelerated speed of the axis times [speed] if a control of the axis
    is pressed, and where it was otherwise.  [s] is the speed of the
    axis before the tick. *)
Definition axis_step (axis : Axis) (mp : Mp) (cfg : Config) (ks : Controls)
    (s : float) (pos direction : Vector3) (speed : float) : Vector3 :=
  if driven axis mp ks then
    displaced axis mp ks pos direction (mul (accelerate cfg s) speed)
  else pos.

(** The position a tick writes: the three steps in the order of
    [handleMovement]. *)
Definition tick_position (mp : Mp) (cfg : Config) (ks : Controls) (st : State)
    (pos direction : Vector3) (speed : float) : Vector3 :=
  axis_step AxVertical mp cfg ks (vertical st)
    (axis_step AxStrafe mp cfg ks (strafe st)
       (axis_step AxForward mp cfg ks (forward st) pos direction speed)
       direction speed)
    direction speed.

(** ** Auxiliary notions for the further properties *)

(** The control tested first by the handler of an axis. *)
Definition first_control (axis : Axis) (ks : Controls) : Z :=
  match axis with
  | AxForward => FORWARD ks
  | AxStrafe => LEFT ks
  | AxVertical => UP ks
  end.

(** The entity a host call is addressed to, if any. *)
Definition call_entity (c : Call) : option Entity :=
  match c with
  | FreezePosition e _ | SetCollision e _ _ | SetCoordsNoOffset e _ _ _ => Some e
  | CamerasNew | GetGroundZ _ _ _ => None
  end.

(** What every object reached from [new_NoClipSystem t] satisfies. *)
Definition constructed_inv (t : Z) (self : NoClipSystem) : Prop :=
  config self = default_config /\
  controls self = default_controls /\
  (t <= lastUpdate (state self))%Z /\
  (isActive self = false ->
   forall a, axis_get a (state self) = baseSpeed default_config).

(** * Lemmas *)

Lemma same_session_refl (s : NoClipSystem) : same_session s s.
Proof. repeat split. Qed.

Lemma same_session_trans (s1 s2 s3 : NoClipSystem) :
  same_session s1 s2 -> same_session s2 s3 -> same_session s1 s3.
Proof.
  unfold same_session.
  intros (A1 & A2 & A3 & A4 & A5) (B1 & B2 & B3 & B4 & B5).
  repeat split; congruence.
Qed.

Ltac split_controls mp :=
  repeat match goal with
         | |- context [isControlPressed mp ?k] =>
             destruct (isControlPressed mp k); cbn
         end.

Lemma accelerateAxis_session (a : Axis) (self : NoClipSystem) :
  same_session self (accelerateAxis a self).
Proof.
  unfold accelerateAxis.
  destruct (ltb _ _); repeat split.
Qed.

Lemma accelerateAxis_state (a : Axis) (self : NoClipSystem) :
  state (accelerateAxis a self)
  = axis_set a (accelerate (config self) (axis_get a (state self))) (state self).
Proof.
  unfold accelerateAxis, accelerate.
  destruct (ltb _ _); [reflexivity|].
  destruct self as [act cfg [f s v l] ks cam tgt], a; reflexivity.
Qed.

Lemma handleForwardMovement_self (mp : Mp) (self : NoClipSystem)
    (pos dir : Vector3) (sp : float) :
  let self' := fst (handleForwardMovement mp self pos dir sp) in
  same_session self self' /\
  state self' = axis_set AxForward
                  (next_speed (config self) (driven AxForward mp (controls self))
                     (forward (state self))) (state self).
Proof.
  unfold handleForwardMovement, next_speed, driven.
  split_controls mp;
    try (split; [apply accelerateAxis_session | apply accelerateAxis_state]);
    repeat split.
Qed.

Lemma handleStrafeMovement_self (mp : Mp) (self : NoClipSystem)
    (pos dir : Vector3) (sp : float) :
  let self' := fst (handleStrafeMovement mp self pos dir sp) in
  same_session self self' /\
  state self' = axis_set AxStrafe
                  (next_speed (config self) (driven AxStrafe mp (controls self))
                     (strafe (state self))) (state self).
Proof.
  unfold handleStrafeMovement, next_speed, driven.
  split_controls mp;
    try (split; [apply accelerateAxis_session | apply accelerateAxis_state]);
    repeat split.
Qed.

Lemma handleVerticalMovement_self (mp : Mp) (self : NoClipSystem)
    (pos : Vector3) (sp : float) :
  let self' := fst (handleVerticalMovement mp self pos sp) in
  same_session self self' /\
  state self' = axis_set AxVertical
                  (next_speed (config self) (driven AxVertical mp (controls self))
                     (vertical (state self))) (state self).
Proof.
  unfold handleVerticalMovement, next_speed, driven.
  split_controls mp;
    try (split; [apply accelerateAxis_session | apply accelerateAxis_state]);
    repeat split.
Qed.

(** After the three handlers every axis speed is [next_speed] of what it
    was, and nothing else in the object has changed. *)
Lemma handleMovement_self (mp : Mp) (self : NoClipSystem)
    (pos dir : Vector3) (sp : float) :
  let self' := fst (handleMovement mp self pos dir sp) in
  same_session self self' /\
  state self'
  = mkState
      (next_speed (config self) (driven AxForward mp (controls self)) (forward (state self)))
      (next_speed (config self) (driven AxStrafe mp (controls self)) (strafe (state self)))
      (next_speed (config self) (driven AxVertical mp (controls self)) (vertical (state self)))
      (lastUpdate (state self)).
Proof.
  unfold handleMovement.
  pose proof (handleForwardMovement_self mp self pos dir sp) as HF.
  destruct (handleForwardMovement mp self pos dir sp) as [s1 p1].
  pose proof (handleStrafeMovement_self mp s1 p1 dir sp) as HS.
  destruct (handleStrafeMovement mp s1 p1 dir sp) as [s2 p2].
  pose proof (handleVerticalMovement_self mp s2 p2 sp) as HV.
  cbn in HF, HS, HV |- *.
  destruct HF as [F1 F2], HS as [S1 S2], HV as [V1 V2].
  split.
  - eauto using same_session_trans.
  - destruct F1 as (_ & Fc & Fk & _), S1 as (_ & Sc & Sk & _).
    rewrite V2, S2, F2. unfold driven.
    rewrite Sc, Sk, Fc, Fk.
    destruct (state self); reflexivity.
Qed.

(** One [update] of an object that holds a camera and a target: it
    returns, writes one position, and moves every axis speed by
    [next_speed]. *)
Lemma update_self (mp : Mp) (self : NoClipSystem) (cam : Camera) (tgt : Entity) :
  camera self = Some cam ->
  targetEntity self = Some tgt ->
  exists self' p,
    update mp self
    = Some (self', [SetCoordsNoOffset (if isPlayerInVehicle mp then tgt else Player)
                                      (x p) (y p) (z p)]) /\
    p = snd (handleMovement mp self (position mp tgt) (getDirection mp cam)
               (getCurrentSpeed mp self)) /\
    same_session self self' /\
    state self'
    = mkState
        (next_speed (config self) (driven AxForward mp (controls self)) (forward (state self)))
        (next_speed (config self) (driven AxStrafe mp (controls self)) (strafe (state self)))
        (next_speed (config self) (driven AxVertical mp (controls self)) (vertical (state self)))
        (now mp).
Proof.
  intros Hc Ht. unfold update. rewrite Hc, Ht.
  pose proof (handleMovement_self mp self (position mp tgt) (getDirection mp cam)
                (getCurrentSpeed mp self)) as HM.
  destruct (handleMovement mp self (position mp tgt) (getDirection mp cam)
              (getCurrentSpeed mp self)) as [s1 p1].
  cbn in HM. destruct HM as [HS HE].
  assert (Ht1 : targetEntity s1 = Some tgt)
    by (destruct HS as (_ & _ & _ & _ & E); congruence).
  unfold updateEntityPosition. rewrite Ht1.
  exists (set_state (set_lastUpdate (now mp) (state s1)) s1), p1.
  split; [destruct (isPlayerInVehicle mp); reflexivity|].
  split; [reflexivity|].
  split; [exact HS|].
  cbn. rewrite HE. reflexivity.
Qed.

Lemma shouldUpdate_true (mp : Mp) (self : NoClipSystem) :
  shouldUpdate mp self = true ->
  isActive self = true /\
  (exists cam, camera self = Some cam) /\
  (exists tgt, targetEntity self = Some tgt) /\
  (now mp - lastUpdate (state self) > tickRate (config self))%Z.
Proof.
  unfold shouldUpdate. rewrite !andb_true_iff.
  intros [[[A C] T] G].
  destruct (camera self) as [cam|]; [|discriminate].
  destruct (targetEntity self) as [tgt|]; [|discriminate].
  repeat split; eauto. now apply Z.gtb_gt.
Qed.

(** The render callback never throws: [update] only runs behind the
    [shouldUpdate] guard. *)
Lemma render_self (mp : Mp) (self : NoClipSystem) :
  exists self' calls,
    render mp self = Some (self', calls) /\ same_session self self'.
Proof.
  unfold render. destruct (shouldUpdate mp self) eqn:E.
  - apply shouldUpdate_true in E.
    destruct E as (_ & [cam Hc] & [tgt Ht] & _).
    destruct (update_self mp self Hc Ht) as (s' & p & U & _ & HS & _).
    eauto.
  - exists self, []. split; [reflexivity | apply same_session_refl].
Qed.

(** A render event on which the tick does run. *)
Lemma render_tick (mp : Mp) (self : NoClipSystem) :
  shouldUpdate mp self = true ->
  exists self' calls,
    render mp self = Some (self', calls) /\
    same_session self self' /\
    lastUpdate (state self') = now mp /\
    forall a, axis_get a (state self')
              = next_speed (config self) (driven a mp (controls self))
                  (axis_get a (state self)).
Proof.
  intros E. unfold render. rewrite E.
  apply shouldUpdate_true in E.
  destruct E as (_ & [cam Hc] & [tgt Ht] & _).
  destruct (update_self mp self Hc Ht) as (s' & p & U & _ & HS & HE).
  exists s'. eexists. split; [exact U|].
  split; [exact HS|]. rewrite HE.
  split; [reflexivity|]. intros []; reflexivity.
Qed.

Lemma run_held_ticks (axis : Axis) (frames : list (Event * Mp)) :
  forall self,
    isActive self = true ->
    camera self <> None ->
    targetEntity self <> None ->
    held_ticks axis (config self) (controls self) (lastUpdate (state self)) frames ->
    exists self' calls,
      run frames self = Some (self', calls) /\
      same_session self self' /\
      axis_get axis (state self')
      = accelerate_n (config self) (length frames) (axis_get axis (state self)).
Proof.
  induction frames as [|[ev mp] rest IH]; intros self Ha Hc Ht Hh.
  - exists self, []. repeat split.
  - cbn in Hh. destruct Hh as (-> & Hclock & Hd & Hrest).
    assert (E : shouldUpdate mp self = true).
    { unfold shouldUpdate. rewrite Ha.
      destruct (camera self); [|congruence].
      destruct (targetEntity self); [|congruence].
      cbn. now apply Z.gtb_gt. }
    destruct (render_tick mp self E) as (s1 & c1 & R & HS & HL & HA).
    pose proof HS as (S1 & S2 & S3 & S4 & S5).
    destruct (IH s1) as (s2 & c2 & R2 & HS2 & HA2).
    + congruence.
    + congruence.
    + congruence.
    + rewrite S2, S3, HL. exact Hrest.
    + exists s2, (c1 ++ c2). cbn. rewrite R, R2.
      split; [reflexivity|].
      split; [eauto using same_session_trans|].
      rewrite HA2, HA, Hd, S2. reflexivity.
Qed.

(** ** Facts about enable, disable and toggle *)

Lemma getTargetEntity_some (mp : Mp) : getTargetEntity mp <> None.
Proof.
  unfold getTargetEntity, isPlayerInVehicle.
  destruct (local_vehicle mp) as [h|]; cbn; [destruct (negb _)|]; discriminate.
Qed.

(** The first press of the TOGGLE key on a fresh object, when the host
    hands out a camera. *)
Lemma first_toggle (mp : Mp) (t : Z) :
  cameras_new mp <> None ->
  let self := fst (toggle mp (new_NoClipSystem t)) in
  isActive self = true /\ camera self <> None /\ targetEntity self <> None /\
  config self = default_config /\ controls self = default_controls /\
  state self = mkState 2.0 2.0 2.0 t.
Proof.
  intros Hc. pose proof (getTargetEntity_some mp) as Ht.
  unfold toggle, enable, enable_with. cbn.
  destruct (cameras_new mp) as [cam|]; [|congruence].
  destruct (getTargetEntity mp) as [tgt|]; [|congruence].
  destruct (isPlayerInVehicle mp); cbn; repeat split; discriminate.
Qed.

(** ** The activation invariant along runs *)

Lemma toggle_activation_inv (mp : Mp) (self : NoClipSystem) :
  activation_inv self -> activation_inv (fst (toggle mp self)).
Proof.
  intros _. pose proof (getTargetEntity_some mp) as Ht.
  unfold toggle, enable, enable_with, disable, activation_inv. cbn.
  destruct (isActive self); cbn.
  - intuition congruence.
  - destruct (cameras_new mp) as [cam|]; cbn.
    + destruct (getTargetEntity mp) as [tgt|]; [|congruence].
      destruct (isPlayerInVehicle mp); cbn; intuition congruence.
    + intuition congruence.
Qed.

Lemma same_session_activation_inv (s s' : NoClipSystem) :
  same_session s s' -> activation_inv s -> activation_inv s'.
Proof.
  unfold same_session, activation_inv.
  intros (A & _ & _ & C & T). rewrite A, C, T. trivial.
Qed.

Lemma step_activation_inv (ev : Event) (mp : Mp) (self : NoClipSystem) :
  activation_inv self ->
  exists self' calls,
    step ev mp self = Some (self', calls) /\ activation_inv self'.
Proof.
  intros Hi. destruct ev; cbn.
  - exists (fst (toggle mp self)), (snd (toggle mp self)).
    split; [now destruct (toggle mp self) | now apply toggle_activation_inv].
  - destruct (render_self mp self) as (s' & calls & R & HS).
    exists s', calls. split; [exact R | eauto using same_session_activation_inv].
Qed.

Lemma run_activation_inv (evs : list (Event * Mp)) :
  forall self,
    activation_inv self ->
    exists self' calls,
      run evs self = Some (self', calls) /\ activation_inv self'.
Proof.
  induction evs as [|[ev mp] rest IH]; intros self Hi; cbn.
  - eauto.
  - destruct (step_activation_inv ev mp Hi) as (s1 & c1 & E1 & H1).
    destruct (IH s1 H1) as (s2 & c2 & E2 & H2).
    rewrite E1, E2. eauto.
Qed.

(** ** The code and the curve of the specification *)

(** The two rules agree on a speed whose product stays below the
    ceiling; they part where the product passes it. *)
Lemma accelerate_below_ceiling (cfg : Config) (v : float) :
  ltb (mul v (acceleration cfg)) (maxSpeed cfg) = true ->
  accelerate cfg v = spec_accelerate cfg v.
Proof.
  intros H. unfold accelerate, spec_accelerate, fmin. rewrite H.
  reflexivity.
Qed.

(** With the constructor's configuration the code follows the curve for
    56 held ticks. *)
Example code_follows_curve_for_56_ticks :
  map (fun n => accelerate_n default_config n 2.0) (seq 0 57)
  = map (spec_held_speed default_config) (seq 0 57).
Proof. vm_compute. reflexivity. Qed.

(** A tick on which no control of an axis is pressed puts that axis
    back at [baseSpeed]. *)
Lemma released_axis_resets (axis : Axis) (mp : Mp) (self : NoClipSystem) :
  shouldUpdate mp self = true ->
  driven axis mp (controls self) = false ->
  exists self' calls,
    render mp self = Some (self', calls) /\
    axis_get axis (state self') = baseSpeed (config self).
Proof.
  intros E Hd.
  destruct (render_tick mp self E) as (s' & calls & R & _ & _ & HA).
  exists s', calls. split; [exact R|].
  rewrite HA, Hd. reflexivity.
Qed.

(** ** The concrete frames *)

Lemma frames_holding_held (axis : Axis) (keys : list Z) (n : nat) :
  driven axis (host 0 None None keys) default_controls = true ->
  forall t, held_ticks axis default_config default_controls t
              (frames_holding keys t n).
Proof.
  intros Hd. induction n as [|n IH]; intros t; cbn; [exact I|].
  repeat split; [lia | exact Hd | apply IH].
Defined.

Lemma frames_holding_length (keys : list Z) (n : nat) :
  forall t, length (frames_holding keys t n) = n.
Proof.
  induction n as [|n IH]; intros t; cbn; [reflexivity | now rewrite IH].
Defined.

(** ** The position after the handlers *)

Lemma handleAxis_closed (axis : Axis) (mp : Mp) (self : NoClipSystem)
    (pos direction : Vector3) (speed : float) :
  handleAxis axis mp self pos direction speed
  = (set_state
       (axis_set axis
          (next_speed (config self) (driven axis mp (controls self))
             (axis_get axis (state self)))
          (state self)) self,
     axis_step axis mp (config self) (controls self)
       (axis_get axis (state self)) pos direction speed).
Proof.
  destruct self as [act cfg [f s v l] ks cam tgt].
  destruct axis; cbn;
    unfold handleForwardMovement, handleStrafeMovement,
      handleVerticalMovement, accelerateAxis, axis_step, next_speed,
      accelerate, driven, displaced; cbn;
    split_controls mp;
    repeat match goal with
           | |- context [ltb ?a ?b] => destruct (ltb a b); cbn
           end; reflexivity.
Qed.

Lemma handleMovement_position (mp : Mp) (self : NoClipSystem)
    (pos direction : Vector3) (speed : float) :
  snd (handleMovement mp self pos direction speed)
  = tick_position mp (config self) (controls self) (state self)
      pos direction speed.
Proof.
  unfold handleMovement, tick_position.
  change (handleForwardMovement mp self pos direction speed)
    with (handleAxis AxForward mp self pos direction speed).
  rewrite handleAxis_closed.
  match goal with
  | |- context [handleStrafeMovement mp ?s1 ?p1 direction speed] =>
      change (handleStrafeMovement mp s1 p1 direction speed)
        with (handleAxis AxStrafe mp s1 p1 direction speed)
  end.
  rewrite handleAxis_closed.
  match goal with
  | |- context [handleVerticalMovement mp ?s2 ?p2 speed] =>
      change (handleVerticalMovement mp s2 p2 speed)
        with (handleAxis AxVertical mp s2 p2 direction speed)
  end.
  rewrite handleAxis_closed. reflexivity.
Qed.

(** * The claims *)

(** C1 (violated by the code).  The claim is that no axis speed ever
    exceeds [maxSpeed].  In the code, an axis held for 57 consecutive
    ticks after activation has a speed strictly above [maxSpeed], for
    every axis and whatever else the host reports on those frames:
    [accelerateAxis] multiplies a speed that is still below the ceiling
    and does not clamp the product. *)
Theorem held_axis_overshoots_maxSpeed (axis : Axis) (mp0 : Mp) (t0 : Z)
    (frames : list (Event * Mp)) :
  cameras_new mp0 <> None ->
  held_ticks axis default_config default_controls t0 frames ->
  length frames = 57%nat ->
  exists self' calls,
    run frames (fst (toggle mp0 (new_NoClipSystem t0))) = Some (self', calls) /\
    isActive self' = true /\
    ltb (maxSpeed (config self')) (axis_get axis (state self')) = true.
Proof.
  intros Hc Hh Hn.
  destruct (first_toggle mp0 t0 Hc) as (A & C & T & Ecfg & Eks & Est).
  destruct (@run_held_ticks axis frames (fst (toggle mp0 (new_NoClipSystem t0))))
    as (s' & calls & R & (S1 & S2 & _) & HA); trivial.
  - rewrite Ecfg, Eks, Est. exact Hh.
  - exists s', calls. split; [exact R|]. split; [congruence|].
    rewrite HA, S2, Ecfg, Est, Hn. destruct axis; reflexivity.
Qed.

Lemma held_axis_overshoots_maxSpeed_witness :
  exists self' calls,
    run (frames_holding [0x20%Z] 0 57)
        (fst (toggle (host 0 (Some (CameraObj 1)) None []) (new_NoClipSystem 0)))
    = Some (self', calls) /\
    isActive self' = true /\
    ltb (maxSpeed (config self')) (axis_get AxForward (state self')) = true.
Proof.
  apply (@held_axis_overshoots_maxSpeed AxForward
           (host 0 (Some (CameraObj 1)) None []) 0 (frames_holding [0x20%Z] 0 57)).
  - discriminate.
  - apply frames_holding_held. reflexivity.
  - apply frames_holding_length.
Defined.

(** C2 (violated by the code).  The claim is that [n] held ticks from
    [baseSpeed] give [min(baseSpeed * accelerationFactor^n, maxSpeed)].
    With the constructor's configuration the code follows that curve for
    the first 56 ticks; on tick 57 the curve of the specification stops
    at [maxSpeed] while the code's speed is the unclamped product,
    strictly above it. *)
Theorem held_speed_leaves_spec_curve (axis : Axis) (mp0 : Mp) (t0 : Z)
    (frames : list (Event * Mp)) :
  cameras_new mp0 <> None ->
  held_ticks axis default_config default_controls t0 frames ->
  length frames = 57%nat ->
  exists self' calls,
    run frames (fst (toggle mp0 (new_NoClipSystem t0))) = Some (self', calls) /\
    axis_get axis (state self') = accelerate_n default_config 57 2.0 /\
    accelerate_n default_config 56 2.0 = spec_held_speed default_config 56 /\
    spec_held_speed default_config 57 = maxSpeed default_config /\
    ltb (spec_held_speed default_config 57) (axis_get axis (state self')) = true.
Proof.
  intros Hc Hh Hn.
  destruct (first_toggle mp0 t0 Hc) as (A & C & T & Ecfg & Eks & Est).
  destruct (@run_held_ticks axis frames (fst (toggle mp0 (new_NoClipSystem t0))))
    as (s' & calls & R & _ & HA); trivial.
  - rewrite Ecfg, Eks, Est. exact Hh.
  - exists s', calls. split; [exact R|].
    rewrite HA, Ecfg, Est, Hn.
    assert (E : axis_get axis (mkState 2.0 2.0 2.0 t0) = 2.0%float)
      by (destruct axis; reflexivity).
    rewrite E. repeat split; vm_compute; reflexivity.
Qed.

Lemma held_speed_leaves_spec_curve_witness :
  exists self' calls,
    run (frames_holding [0x146%Z] 0 57)
        (fst (toggle (host 0 (Some (CameraObj 1)) None []) (new_NoClipSystem 0)))
    = Some (self', calls) /\
    axis_get AxVertical (state self') = accelerate_n default_config 57 2.0 /\
    accelerate_n default_config 56 2.0 = spec_held_speed default_config 56 /\
    spec_held_speed default_config 57 = maxSpeed default_config /\
    ltb (spec_held_speed default_config 57) (axis_get AxVertical (state self')) = true.
Proof.
  apply (@held_speed_leaves_spec_curve AxVertical
           (host 0 (Some (CameraObj 1)) None []) 0 (frames_holding [0x146%Z] 0 57)).
  - discriminate.
  - apply frames_holding_held. reflexivity.
  - apply frames_holding_length.
Defined.

(** C3.  If camera acquisition fails during [enable], then [isActive] is
    false afterwards, whatever the starting state, and the only host
    call made is the camera request: no freeze, collision or position
    call reaches the target. *)
Theorem enable_camera_failure (mp : Mp) (self : NoClipSystem) :
  cameras_new mp = None ->
  isActive (fst (enable mp self)) = false /\
  snd (enable mp self) = [CamerasNew] /\
  count is_freeze_or_collision (snd (enable mp self)) = 0%nat.
Proof.
  intros Hc. unfold enable, enable_with. cbn. rewrite Hc.
  repeat split.
Qed.

Lemma enable_camera_failure_witness :
  let mp := host 0 None (Some 7%Z) [] in
  let self := set_isActive true (new_NoClipSystem 0) in
  isActive (fst (enable mp self)) = false /\
  snd (enable mp self) = [CamerasNew] /\
  count is_freeze_or_collision (snd (enable mp self)) = 0%nat.
Proof.
  apply (@enable_camera_failure (host 0 None (Some 7%Z) [])
           (set_isActive true (new_NoClipSystem 0))).
  reflexivity.
Defined.

(** The branch of [enable] for a null target (the guard of line 100)
    is never taken by the class's own resolver, see
    [getTargetEntity_some]: after [enable] the target is always
    present.  On that branch, were a resolver to answer null, the code
    stores the camera and leaves [isActive] as it found it. *)
Lemma enable_target_present (mp : Mp) (self : NoClipSystem) :
  targetEntity (fst (enable mp self)) <> None.
Proof.
  pose proof (getTargetEntity_some mp) as Ht.
  unfold enable, enable_with. cbn.
  destruct (cameras_new mp) as [cam|]; cbn; [|exact Ht].
  destruct (getTargetEntity mp) as [tgt|]; [|congruence].
  destruct (isPlayerInVehicle mp); cbn; discriminate.
Qed.

Lemma enable_null_target (resolve : Mp -> option Entity) (mp : Mp)
    (self : NoClipSystem) (cam : Camera) :
  resolve mp = None ->
  cameras_new mp = Some cam ->
  enable_with resolve mp self
  = (set_camera (Some cam) (set_targetEntity None self), [CamerasNew]).
Proof.
  intros Hr Hc. unfold enable_with. cbn. rewrite Hr, Hc. reflexivity.
Qed.

(** C5, as claimed, fails: after one press of TOGGLE on a host whose
    camera service fails, the object is inactive and still holds the
    target that [enable] resolved. *)
Lemma failed_enable_keeps_target :
  exists self calls,
    run [(KeyToggle, host 0 None None [])] (new_NoClipSystem 0)
    = Some (self, calls) /\
    isActive self = false /\ targetEntity self = Some Player /\
    ~ (targetEntity self <> None <-> isActive self = true).
Proof.
  eexists. eexists. split; [reflexivity|]. cbn.
  repeat split. intros [H _]. discriminate H. discriminate.
Qed.

(** C5, amended.  In every state reached from a fresh object by presses
    of TOGGLE and render events, whatever the host answers (failed
    camera requests included), the run goes through, [isActive] holds
    exactly when the camera handle is present, and the target reference
    is present whenever [isActive] holds. *)
Theorem reachable_activation_inv (evs : list (Event * Mp)) (t : Z) :
  exists self calls,
    run evs (new_NoClipSystem t) = Some (self, calls) /\
    (isActive self = true <-> camera self <> None) /\
    (isActive self = true -> targetEntity self <> None).
Proof.
  apply run_activation_inv. unfold activation_inv. cbn.
  intuition congruence.
Qed.

(** C6, as claimed, fails: on a fresh (inactive) object, a first press
    of TOGGLE whose camera request fails followed by a second press
    whose camera request succeeds leaves the object active. *)
Lemma toggle_twice_after_failed_enable :
  let s0 := new_NoClipSystem 0 in
  let s1 := fst (toggle (host 0 None None []) s0) in
  let s2 := fst (toggle (host 1 (Some (CameraObj 1)) None []) s1) in
  isActive s0 = false /\ isActive s2 = true /\ isActive s2 <> isActive s0.
Proof.
  cbn. repeat split. discriminate.
Qed.

(** C6, amended.  If the camera request made by the enabling one of two
    consecutive [toggle] calls succeeds (the first call on an inactive
    object, the second on an active one), the two calls bring
    [isActive] back to its original value and leave the three axis
    speeds at [baseSpeed]. *)
Theorem toggle_twice (mp1 mp2 : Mp) (self : NoClipSystem) :
  cameras_new (if isActive self then mp2 else mp1) <> None ->
  let self2 := fst (toggle mp2 (fst (toggle mp1 self))) in
  isActive self2 = isActive self /\
  config self2 = config self /\
  forward (state self2) = baseSpeed (config self) /\
  strafe (state self2) = baseSpeed (config self) /\
  vertical (state self2) = baseSpeed (config self).
Proof.
  intros Hc.
  pose proof (getTargetEntity_some mp1) as Ht1.
  pose proof (getTargetEntity_some mp2) as Ht2.
  unfold toggle, enable, enable_with, disable. cbn.
  destruct (isActive self) eqn:Ha; cbn.
  - destruct (cameras_new mp2) as [cam|]; [|congruence].
    destruct (getTargetEntity mp2) as [tgt|]; [|congruence].
    destruct (isPlayerInVehicle mp2); cbn; repeat split.
  - destruct (cameras_new mp1) as [cam|]; [|congruence].
    destruct (getTargetEntity mp1) as [tgt|]; [|congruence].
    destruct (isPlayerInVehicle mp1); cbn; repeat split.
Qed.

Lemma toggle_twice_witness :
  let mp1 := host 0 (Some (CameraObj 1)) None [] in
  let mp2 := host 5 None None [] in
  let self := new_NoClipSystem 0 in
  let self2 := fst (toggle mp2 (fst (toggle mp1 self))) in
  isActive self2 = isActive self /\
  config self2 = config self /\
  forward (state self2) = baseSpeed (config self) /\
  strafe (state self2) = baseSpeed (config self) /\
  vertical (state self2) = baseSpeed (config self).
Proof.
  apply (@toggle_twice (host 0 (Some (CameraObj 1)) None [])
           (host 5 None None []) (new_NoClipSystem 0)).
  discriminate.
Defined.

(** C7, as claimed, fails.  With the bare player as stored target,
    [disable] issues no ground-height query and no position write when
    the player sits in a vehicle at that moment (the occupancy is
    tested again, line 116), and none either when the player is on foot
    but the position read is missing (the guard of line 301). *)
Lemma disable_player_target_without_ground_snap :
  let self := fst (toggle (host 0 (Some (CameraObj 1)) None [])
                          (new_NoClipSystem 0)) in
  let seated := host 5 None (Some 9%Z) [] in
  let no_position := mkMp 5 None (fun _ => mkVector3 1 0 0) None
                          (fun _ => mkVector3 0 0 0) (fun _ => false)
                          (fun _ _ _ => 0%float) (fun _ => None) in
  targetEntity self = Some Player /\
  snd (toggle seated self)
  = [FreezePosition Player false; SetCollision Player true true] /\
  count is_ground_query (snd (disable seated self)) <> 1%nat /\
  snd (toggle no_position self)
  = [FreezePosition Player false; SetCollision Player true true] /\
  count is_ground_query (snd (disable no_position self)) <> 1%nat.
Proof.
  cbn. repeat split; discriminate.
Qed.

(** C7, amended.  When [disable] runs with the bare player as target,
    the player is not in a vehicle at that moment and the player's
    position read is an object, [disable] unfreezes the player,
    restores collision, and then issues exactly one ground-height
    query, at the player's current position, and exactly one position
    write, which keeps the player's x and y and puts z at the height
    the query returned. *)
Theorem disable_on_foot_snaps_to_ground (mp : Mp) (self : NoClipSystem)
    (p : Vector3) :
  targetEntity self = Some Player ->
  isPlayerInVehicle mp = false ->
  entity_position mp Player = Some p ->
  snd (disable mp self)
  = [FreezePosition Player false; SetCollision Player true true;
     GetGroundZ (x p) (y p) (z p);
     SetCoordsNoOffset Player (x p) (y p)
       (getGroundZFor3dCoord mp (x p) (y p) (z p))] /\
  count is_ground_query (snd (disable mp self)) = 1%nat /\
  count is_position_write (snd (disable mp self)) = 1%nat.
Proof.
  intros Ht Hv Hp. unfold disable, setEntityToGround. cbn.
  rewrite Ht, Hv, Hp. repeat split.
Qed.

Lemma disable_on_foot_snaps_to_ground_witness :
  let mp := mkMp 9 None (fun _ => mkVector3 1 0 0) None
                 (fun _ => mkVector3 3 4 50) (fun _ => false)
                 (fun _ _ _ => 12.5%float)
                 (fun _ => Some (mkVector3 3 4 50)) in
  let self := fst (toggle (host 0 (Some (CameraObj 1)) None [])
                          (new_NoClipSystem 0)) in
  snd (disable mp self)
  = [FreezePosition Player false; SetCollision Player true true;
     GetGroundZ 3 4 50; SetCoordsNoOffset Player 3 4 12.5] /\
  count is_ground_query (snd (disable mp self)) = 1%nat /\
  count is_position_write (snd (disable mp self)) = 1%nat.
Proof.
  apply (@disable_on_foot_snaps_to_ground
           (mkMp 9 None (fun _ => mkVector3 1 0 0) None
                 (fun _ => mkVector3 3 4 50) (fun _ => false)
                 (fun _ _ _ => 12.5%float)
                 (fun _ => Some (mkVector3 3 4 50)))
           (fst (toggle (host 0 (Some (CameraObj 1)) None [])
                        (new_NoClipSystem 0)))
           (mkVector3 3 4 50));
    reflexivity.
Defined.

(** C8.  If the player sits in a vehicle when [enable] runs and still
    sits in it when [disable] runs, [disable] unfreezes that vehicle,
    sets both of its collision flags back to true, and does nothing
    else: no ground-height query and no position write. *)
Theorem disable_in_vehicle (mp mp' : Mp) (self : NoClipSystem) (h : Z) :
  local_vehicle mp = Some h ->
  h <> 0%Z ->
  local_vehicle mp' = local_vehicle mp ->
  let active := fst (enable mp self) in
  targetEntity active = Some (Vehicle h) /\
  snd (disable mp' active)
  = [FreezePosition (Vehicle h) false; SetCollision (Vehicle h) true true] /\
  count is_ground_query (snd (disable mp' active)) = 0%nat /\
  count is_position_write (snd (disable mp' active)) = 0%nat.
Proof.
  intros Hv Hh Hv'.
  assert (Hin : isPlayerInVehicle mp = true).
  { unfold isPlayerInVehicle. rewrite Hv.
    apply negb_true_iff. now apply Z.eqb_neq. }
  assert (Hin' : isPlayerInVehicle mp' = true).
  { unfold isPlayerInVehicle in *. now rewrite Hv'. }
  assert (Ht : targetEntity (fst (enable mp self)) = Some (Vehicle h)).
  { unfold enable, enable_with, getTargetEntity. cbn.
    rewrite Hin, Hv. cbn. destruct (cameras_new mp); reflexivity. }
  cbn. split; [exact Ht|].
  unfold disable. cbn. rewrite Ht, Hin'. repeat split.
Qed.

Lemma disable_in_vehicle_witness :
  let mp := host 0 (Some (CameraObj 1)) (Some 42%Z) [] in
  let mp' := host 30 None (Some 42%Z) [] in
  let active := fst (enable mp (set_isActive true (new_NoClipSystem 0))) in
  targetEntity active = Some (Vehicle 42) /\
  snd (disable mp' active)
  = [FreezePosition (Vehicle 42) false; SetCollision (Vehicle 42) true true] /\
  count is_ground_query (snd (disable mp' active)) = 0%nat /\
  count is_position_write (snd (disable mp' active)) = 0%nat.
Proof.
  apply (@disable_in_vehicle (host 0 (Some (CameraObj 1)) (Some 42%Z) [])
           (host 30 None (Some 42%Z) [])
           (set_isActive true (new_NoClipSystem 0)) 42%Z).
  - reflexivity.
  - discriminate.
  - reflexivity.
Defined.

(** C9, as claimed, fails in its last part.  The two controls of an
    axis share one speed, so an input newly held right after the
    opposite input does not start from [baseSpeed]: with FORWARD held
    for three ticks and BACKWARD newly held on the fourth, the entity
    moves back by [2.0 * 1.025^4 * 0.2], more than
    [baseSpeed * acceleration * speed = 2.0 * 1.025 * 0.2]. *)
Lemma newly_held_backward_keeps_accumulated_speed :
  let evs := (KeyToggle, host 0 (Some (CameraObj 1)) None [])
             :: frames_holding [0x20%Z] 0 3
             ++ [(Render, host 4 None None [0x21%Z])] in
  let v := mul (mul (mul (mul 2.0 1.025) 1.025) 1.025) 1.025 in
  exists self calls,
    run evs (new_NoClipSystem 0) = Some (self, calls) /\
    last calls CamerasNew
    = SetCoordsNoOffset Player (sub 0 (mul 1 (mul v 0.2))) 0 0 /\
    ltb (mul (mul 2.0 1.025) 0.2) (mul v 0.2) = true.
Proof.
  eexists. eexists. split; [vm_compute; reflexivity|].
  split; vm_compute; reflexivity.
Qed.

(** C9, amended.  On every tick where an input of an axis is held and
    the axis speed [s] is below [maxSpeed], the acceleration is applied
    before the displacement is computed: the tick stores
    [s * acceleration] and the step of that axis in the written position
    is a move by [(s * acceleration) * speed] along the axis; when no
    other axis is driven, that move from the target's position is the
    position written.  So a tick on which an input is held on an axis
    whose speed is [baseSpeed] (the axis was not driven on the previous
    tick) moves the entity by [baseSpeed * acceleration * speed], not by
    [baseSpeed * speed]. *)
Theorem tick_displacement_uses_accelerated_speed (axis : Axis) (mp : Mp)
    (self : NoClipSystem) (cam : Camera) (tgt : Entity) :
  camera self = Some cam ->
  targetEntity self = Some tgt ->
  driven axis mp (controls self) = true ->
  ltb (axis_get axis (state self)) (maxSpeed (config self)) = true ->
  let v := mul (axis_get axis (state self)) (acceleration (config self)) in
  let speed := getCurrentSpeed mp self in
  let direction := getDirection mp cam in
  let p := tick_position mp (config self) (controls self) (state self)
             (position mp tgt) direction speed in
  exists self',
    update mp self
    = Some (self', [SetCoordsNoOffset (if isPlayerInVehicle mp then tgt else Player)
                                      (x p) (y p) (z p)]) /\
    axis_get axis (state self') = v /\
    (forall pos,
        axis_step axis mp (config self) (controls self)
          (axis_get axis (state self)) pos direction speed
        = displaced axis mp (controls self) pos direction (mul v speed)) /\
    ((forall a, a <> axis -> driven a mp (controls self) = false) ->
     p = displaced axis mp (controls self) (position mp tgt) direction
           (mul v speed)).
Proof.
  intros Hc Ht Hd Hlt. cbn zeta.
  destruct (update_self mp self Hc Ht) as (s' & p0 & U & Hp & _ & HE).
  rewrite handleMovement_position in Hp. subst p0.
  assert (Hstep : forall pos,
             axis_step axis mp (config self) (controls self)
               (axis_get axis (state self)) pos (getDirection mp cam)
               (getCurrentSpeed mp self)
             = displaced axis mp (controls self) pos (getDirection mp cam)
                 (mul (mul (axis_get axis (state self))
                         (acceleration (config self)))
                    (getCurrentSpeed mp self))).
  { intros pos. unfold axis_step, accelerate. now rewrite Hd, Hlt. }
  exists s'. split; [exact U|]. split; [|split; [exact Hstep|]].
  - rewrite HE. unfold next_speed, accelerate.
    destruct axis; cbn in *; now rewrite Hd, Hlt.
  - intros Hothers. unfold tick_position.
    destruct axis.
    + rewrite <- (Hstep (position mp tgt)). cbn [axis_get].
      unfold axis_step at 1 2.
      rewrite (Hothers AxVertical), (Hothers AxStrafe) by discriminate.
      reflexivity.
    + rewrite <- (Hstep (position mp tgt)). cbn [axis_get].
      unfold axis_step at 1 3.
      rewrite (Hothers AxVertical), (Hothers AxForward) by discriminate.
      reflexivity.
    + rewrite <- (Hstep (position mp tgt)). cbn [axis_get].
      unfold axis_step at 2 3.
      rewrite (Hothers AxStrafe), (Hothers AxForward) by discriminate.
      reflexivity.
Qed.

Lemma tick_displacement_uses_accelerated_speed_witness :
  let mp := host 1 None None [0x20%Z] in
  let self := fst (toggle (host 0 (Some (CameraObj 1)) None [])
                          (new_NoClipSystem 0)) in
  let v := mul 2.0 1.025 in
  let p := tick_position mp (config self) (controls self) (state self)
             (position mp Player) (mkVector3 1 0 0) 0.2 in
  exists self',
    update mp self
    = Some (self', [SetCoordsNoOffset Player (x p) (y p) (z p)]) /\
    axis_get AxForward (state self') = v /\
    (forall pos,
        axis_step AxForward mp (config self) (controls self)
          (axis_get AxForward (state self)) pos (mkVector3 1 0 0) 0.2
        = displaced AxForward mp (controls self) pos (mkVector3 1 0 0)
            (mul v 0.2)) /\
    ((forall a, a <> AxForward -> driven a mp (controls self) = false) ->
     p = displaced AxForward mp (controls self) (position mp Player)
           (mkVector3 1 0 0) (mul v 0.2)).
Proof.
  apply (@tick_displacement_uses_accelerated_speed AxForward
           (host 1 None None [0x20%Z])
           (fst (toggle (host 0 (Some (CameraObj 1)) None [])
                        (new_NoClipSystem 0)))
           (CameraObj 1) Player);
    reflexivity.
Defined.

(** The first tick with FORWARD held, on the whole callback: the player
    is written to [0 + 1 * ((2.0 * 1.025) * 0.2)] along x. *)
Example first_tick_forward_write :
  option_map snd (session [0x20%Z] 1)
  = Some [CamerasNew; FreezePosition Player true; SetCollision Player false false;
          SetCoordsNoOffset Player (add 0 (mul 1 (mul (mul 2.0 1.025) 0.2)))
                            0 0].
Proof. vm_compute. reflexivity. Qed.

(** C10.  [destroy] on an active object does what [disable] does: it
    unfreezes and restores the collision of the target (the vehicle, or
    the local player with the ground snap when its position is read),
    resets the three speeds, clears camera and target, and leaves
    [isActive] true.  The next [toggle] therefore flips the flag to
    false and runs [disable] once more, this time with no target and no
    host call. *)
Theorem destroy_leaves_isActive_true (mp : Mp) (self : NoClipSystem) :
  isActive self = true ->
  let b := baseSpeed (config self) in
  let destroyed :=
    mkNoClipSystem true (config self)
      (mkState b b b (lastUpdate (state self))) (controls self) None None in
  destroy mp self
  = (destroyed,
     match targetEntity self with
     | None => []
     | Some tgt =>
         if isPlayerInVehicle mp then
           [FreezePosition tgt false; SetCollision tgt true true]
         else
           FreezePosition Player false :: SetCollision Player true true
           :: match entity_position mp Player with
              | Some p =>
                  [GetGroundZ (x p) (y p) (z p);
                   SetCoordsNoOffset Player (x p) (y p)
                     (getGroundZFor3dCoord mp (x p) (y p) (z p))]
              | None => []
              end
     end) /\
  destroy mp self = disable mp self /\
  isActive (fst (destroy mp self)) = true /\
  forall mp',
    toggle mp' destroyed = (set_isActive false destroyed, []) /\
    toggle mp' destroyed = disable mp' (set_isActive false destroyed).
Proof.
  intros Ha. unfold destroy. rewrite Ha.
  unfold disable, setEntityToGround, resetState, set_camera,
    set_targetEntity, set_state. cbn. rewrite Ha.
  split; [|repeat split].
  destruct (targetEntity self) as [tgt|]; [|reflexivity].
  destruct (isPlayerInVehicle mp); [reflexivity|].
  destruct (entity_position mp Player); reflexivity.
Qed.

Lemma destroy_leaves_isActive_true_witness :
  let mp := host 20 None None [] in
  let self := fst (toggle (host 0 (Some (CameraObj 1)) None [])
                          (new_NoClipSystem 0)) in
  let destroyed :=
    mkNoClipSystem true default_config (mkState 2.0 2.0 2.0 0)
                   default_controls None None in
  destroy mp self
  = (destroyed,
     [FreezePosition Player false; SetCollision Player true true;
      GetGroundZ 0 0 0; SetCoordsNoOffset Player 0 0 0]) /\
  destroy mp self = disable mp self /\
  isActive (fst (destroy mp self)) = true /\
  forall mp',
    toggle mp' destroyed = (set_isActive false destroyed, []) /\
    toggle mp' destroyed = disable mp' (set_isActive false destroyed).
Proof.
  apply (@destroy_leaves_isActive_true (host 20 None None [])
           (fst (toggle (host 0 (Some (CameraObj 1)) None [])
                        (new_NoClipSystem 0)))).
  reflexivity.
Defined.

(** * Further properties of the code *)

(** ** The render callback and its guard *)

Lemma shouldUpdate_false (mp : Mp) (self : NoClipSystem) :
  shouldUpdate mp self = false <->
  isActive self = false \/ camera self = None \/ targetEntity self = None \/
  (now mp - lastUpdate (state self) <= tickRate (config self))%Z.
Proof.
  unfold shouldUpdate. rewrite !andb_false_iff. split.
  - intros [[[A|C]|T]|G]; auto.
    + destruct (camera self); [discriminate C | auto].
    + destruct (targetEntity self); [discriminate T | auto].
    + right. right. right.
      destruct (Z.gtb_spec (now mp - lastUpdate (state self))
                  (tickRate (config self))); [discriminate | lia].
  - intros [A|[C|[T|G]]]; auto.
    + rewrite C. auto.
    + rewrite T. auto.
    + right. destruct (Z.gtb_spec (now mp - lastUpdate (state self))
                         (tickRate (config self))); [lia | reflexivity].
Qed.

(** X1.  A render event does nothing at all (same object, no host call)
    exactly when the object is inactive, or holds no camera, or holds no
    target, or no more than [tickRate] milliseconds have passed since
    the last update. *)
Theorem render_noop_iff (mp : Mp) (self : NoClipSystem) :
  render mp self = Some (self, []) <->
  isActive self = false \/ camera self = None \/ targetEntity self = None \/
  (now mp - lastUpdate (state self) <= tickRate (config self))%Z.
Proof.
  rewrite <- shouldUpdate_false. unfold render.
  destruct (shouldUpdate mp self) eqn:E; split; trivial; try discriminate.
  intros R. apply shouldUpdate_true in E.
  destruct E as (_ & [cam Hc] & [tgt Ht] & _).
  destruct (update_self mp self Hc Ht) as (s' & p & U & _).
  rewrite U in R. discriminate R.
Qed.

(** X2.  Whenever the render callback returns, it has left [isActive],
    the configuration, the controls, the camera and the target as they
    were and has made at most one host call, which is a position write:
    it never freezes, switches collision, queries the ground or requests
    a camera. *)
Theorem render_safe (mp : Mp) (self self' : NoClipSystem) (calls : list Call) :
  render mp self = Some (self', calls) ->
  same_session self self' /\
  (calls = [] \/
   exists e cx cy cz, calls = [SetCoordsNoOffset e cx cy cz]).
Proof.
  unfold render. destruct (shouldUpdate mp self) eqn:E.
  - apply shouldUpdate_true in E.
    destruct E as (_ & [cam Hc] & [tgt Ht] & _).
    destruct (update_self mp self Hc Ht) as (s' & p & U & _ & HS & _).
    rewrite U. intros R. injection R as <- <-.
    split; [exact HS|]. right. eauto.
  - intros R. injection R as <- <-.
    split; [apply same_session_refl | now left].
Qed.

Lemma render_safe_witness :
  let mp := host 1 None None [0x20%Z] in
  let self := fst (toggle (host 0 (Some (CameraObj 1)) None [])
                          (new_NoClipSystem 0)) in
  let self' := mkNoClipSystem true default_config
                 (mkState (mul 2.0 1.025) 2.0 2.0 1) default_controls
                 (Some (CameraObj 1)) (Some Player) in
  let calls := [SetCoordsNoOffset Player
                  (add 0 (mul 1 (mul (mul 2.0 1.025) 0.2)))
                  (add 0 (mul 0 (mul (mul 2.0 1.025) 0.2)))
                  (add 0 (mul 0 (mul (mul 2.0 1.025) 0.2)))] in
  same_session self self' /\
  (calls = [] \/
   exists e cx cy cz, calls = [SetCoordsNoOffset e cx cy cz]).
Proof.
  apply (@render_safe (host 1 None None [0x20%Z])
           (fst (toggle (host 0 (Some (CameraObj 1)) None [])
                        (new_NoClipSystem 0)))
           (mkNoClipSystem true default_config
              (mkState (mul 2.0 1.025) 2.0 2.0 1) default_controls
              (Some (CameraObj 1)) (Some Player))
           [SetCoordsNoOffset Player
              (add 0 (mul 1 (mul (mul 2.0 1.025) 0.2)))
              (add 0 (mul 0 (mul (mul 2.0 1.025) 0.2)))
              (add 0 (mul 0 (mul (mul 2.0 1.025) 0.2)))]).
  reflexivity.
Defined.

(** X3.  Throttling: after a render event on which the tick ran, a
    render event no more than [tickRate] milliseconds later does
    nothing. *)
Theorem render_throttled (mp mp' : Mp) (self self1 : NoClipSystem)
    (calls : list Call) :
  shouldUpdate mp self = true ->
  render mp self = Some (self1, calls) ->
  (now mp' - now mp <= tickRate (config self))%Z ->
  render mp' self1 = Some (self1, []).
Proof.
  intros E R Hclock.
  destruct (render_tick mp self E) as (s' & c' & R' & HS & HL & _).
  rewrite R in R'. injection R' as <- <-.
  destruct HS as (_ & Hcfg & _).
  unfold render.
  assert (F : shouldUpdate mp' self1 = false).
  { apply shouldUpdate_false. right. right. right.
    rewrite HL, Hcfg. exact Hclock. }
  now rewrite F.
Qed.

Lemma render_throttled_witness :
  let mp := host 1 None None [0x20%Z] in
  let self := fst (toggle (host 0 (Some (CameraObj 1)) None [])
                          (new_NoClipSystem 0)) in
  let self1 := mkNoClipSystem true default_config
                 (mkState (mul 2.0 1.025) 2.0 2.0 1) default_controls
                 (Some (CameraObj 1)) (Some Player) in
  render (host 1 None None []) self1 = Some (self1, []).
Proof.
  apply (@render_throttled (host 1 None None [0x20%Z]) (host 1 None None [])
           (fst (toggle (host 0 (Some (CameraObj 1)) None [])
                        (new_NoClipSystem 0)))
           (mkNoClipSystem true default_config
              (mkState (mul 2.0 1.025) 2.0 2.0 1) default_controls
              (Some (CameraObj 1)) (Some Player))
           [SetCoordsNoOffset Player (add 0 (mul 1 (mul (mul 2.0 1.025) 0.2)))
              (add 0 (mul 0 (mul (mul 2.0 1.025) 0.2)))
              (add 0 (mul 0 (mul (mul 2.0 1.025) 0.2)))]).
  - reflexivity.
  - reflexivity.
  - cbn. lia.
Defined.

(** X4.  On a render event on which the tick runs, each axis speed
    becomes [accelerateAxis] of its old value if one of the two controls
    of that axis is pressed and [baseSpeed] otherwise, independently of
    the other axes; [lastUpdate] becomes the current time and nothing
    else in the object changes. *)
Theorem tick_speed_dynamics (mp : Mp) (self : NoClipSystem) :
  shouldUpdate mp self = true ->
  exists self' calls,
    render mp self = Some (self', calls) /\
    same_session self self' /\
    state self'
    = mkState
        (next_speed (config self) (driven AxForward mp (controls self))
           (forward (state self)))
        (next_speed (config self) (driven AxStrafe mp (controls self))
           (strafe (state self)))
        (next_speed (config self) (driven AxVertical mp (controls self))
           (vertical (state self)))
        (now mp).
Proof.
  intros E. unfold render. rewrite E.
  apply shouldUpdate_true in E.
  destruct E as (_ & [cam Hc] & [tgt Ht] & _).
  destruct (update_self mp self Hc Ht) as (s' & p & U & _ & HS & HE).
  exists s'. eexists. split; [exact U|]. split; [exact HS | exact HE].
Qed.

Lemma tick_speed_dynamics_witness :
  let mp := host 1 None None [0x21%Z; 0x141%Z] in
  let self := fst (toggle (host 0 (Some (CameraObj 1)) None [])
                          (new_NoClipSystem 0)) in
  exists self' calls,
    render mp self = Some (self', calls) /\
    same_session self self' /\
    state self'
    = mkState
        (next_speed (config self) (driven AxForward mp (controls self))
           (forward (state self)))
        (next_speed (config self) (driven AxStrafe mp (controls self))
           (strafe (state self)))
        (next_speed (config self) (driven AxVertical mp (controls self))
           (vertical (state self)))
        (now mp).
Proof.
  apply (@tick_speed_dynamics (host 1 None None [0x21%Z; 0x141%Z])
           (fst (toggle (host 0 (Some (CameraObj 1)) None [])
                        (new_NoClipSystem 0)))).
  reflexivity.
Defined.

(** ** Movement handlers *)

(** X5.  Opposing inputs: when the first control of an axis (FORWARD,
    LEFT, UP) is pressed, its handler adds the displacement and does not
    look at the opposite control; the result is the same whatever else
    the host reports. *)
Theorem first_control_wins (axis : Axis) (mp mp' : Mp) (self : NoClipSystem)
    (pos direction : Vector3) (speed : float) :
  isControlPressed mp (first_control axis (controls self)) = true ->
  isControlPressed mp' (first_control axis (controls self)) = true ->
  handleAxis axis mp self pos direction speed
  = handleAxis axis mp' self pos direction speed /\
  snd (handleAxis axis mp self pos direction speed)
  = let v := axis_get axis (state (accelerateAxis axis self)) in
    match axis with
    | AxForward =>
        mkVector3 (add (x pos) (mul (x direction) (mul v speed)))
                  (add (y pos) (mul (y direction) (mul v speed)))
                  (add (z pos) (mul (z direction) (mul v speed)))
    | AxStrafe =>
        mkVector3 (add (x pos) (mul (opp (y direction)) (mul v speed)))
                  (add (y pos) (mul (x direction) (mul v speed)))
                  (z pos)
    | AxVertical =>
        mkVector3 (x pos) (y pos) (add (z pos) (mul v speed))
    end.
Proof.
  intros H H'.
  destruct axis; cbn in *;
    unfold handleForwardMovement, handleStrafeMovement,
      handleVerticalMovement; rewrite H, H'; split; reflexivity.
Qed.

Lemma first_control_wins_witness :
  let mp := host 1 None None [0x22%Z; 0x23%Z] in
  let mp' := host 1 None None [0x22%Z] in
  let self := new_NoClipSystem 0 in
  let pos := mkVector3 10 20 30 in
  let direction := mkVector3 1 0 0 in
  handleAxis AxStrafe mp self pos direction 0.2
  = handleAxis AxStrafe mp' self pos direction 0.2 /\
  snd (handleAxis AxStrafe mp self pos direction 0.2)
  = mkVector3 (add 10 (mul (opp 0) (mul (mul 2.0 1.025) 0.2)))
              (add 20 (mul 1 (mul (mul 2.0 1.025) 0.2)))
              30.
Proof.
  apply (@first_control_wins AxStrafe (host 1 None None [0x22%Z; 0x23%Z])
           (host 1 None None [0x22%Z]) (new_NoClipSystem 0)
           (mkVector3 10 20 30) (mkVector3 1 0 0) 0.2%float);
    reflexivity.
Defined.

(** X6.  Strafing never changes the altitude and vertical movement
    never changes the horizontal coordinates, whatever is pressed. *)
Theorem strafe_and_vertical_axes (mp : Mp) (self : NoClipSystem)
    (pos direction : Vector3) (speed : float) :
  z (snd (handleStrafeMovement mp self pos direction speed)) = z pos /\
  x (snd (handleVerticalMovement mp self pos speed)) = x pos /\
  y (snd (handleVerticalMovement mp self pos speed)) = y pos.
Proof.
  unfold handleStrafeMovement, handleVerticalMovement.
  repeat split; split_controls mp; reflexivity.
Qed.

(** X7.  A tick on which no movement control is pressed writes the
    position it read from the target back unchanged and puts the three
    axis speeds at [baseSpeed].  The position is read from
    [this.targetEntity]; the write goes to that entity if the player is
    in a vehicle at that moment and to the local player otherwise. *)
Theorem idle_tick (mp : Mp) (self : NoClipSystem) (cam : Camera) (tgt : Entity) :
  camera self = Some cam ->
  targetEntity self = Some tgt ->
  (forall a, driven a mp (controls self) = false) ->
  let p := position mp tgt in
  let b := baseSpeed (config self) in
  update mp self
  = Some (set_state (mkState b b b (now mp)) self,
          [SetCoordsNoOffset (if isPlayerInVehicle mp then tgt else Player)
                             (x p) (y p) (z p)]).
Proof.
  intros Hc Ht Hd.
  pose proof (Hd AxForward) as HF. pose proof (Hd AxStrafe) as HS.
  pose proof (Hd AxVertical) as HV. cbn in HF, HS, HV.
  apply orb_false_iff in HF, HS, HV.
  destruct HF as [F1 F2], HS as [S1 S2], HV as [V1 V2].
  unfold update, handleMovement, handleForwardMovement, handleStrafeMovement,
    handleVerticalMovement, updateEntityPosition.
  rewrite Hc, Ht, F1, F2. cbn. rewrite S1, S2. cbn. rewrite V1, V2. cbn.
  rewrite Ht. destruct (isPlayerInVehicle mp); reflexivity.
Qed.

Lemma idle_tick_witness :
  let mp := mkMp 9 None (fun _ => mkVector3 1 0 0) None
                 (fun e => match e with
                           | Player => mkVector3 3 4 50
                           | Vehicle _ => mkVector3 7 8 9
                           end)
                 (fun _ => false) (fun _ _ _ => 0%float)
                 (fun e => Some match e with
                                | Player => mkVector3 3 4 50
                                | Vehicle _ => mkVector3 7 8 9
                                end) in
  let self := mkNoClipSystem true default_config (mkState 5 6 7 2)
                default_controls (Some (CameraObj 1)) (Some (Vehicle 42)) in
  update mp self
  = Some (set_state (mkState 2 2 2 9) self, [SetCoordsNoOffset Player 7 8 9]).
Proof.
  apply (@idle_tick
           (mkMp 9 None (fun _ => mkVector3 1 0 0) None
                 (fun e => match e with
                           | Player => mkVector3 3 4 50
                           | Vehicle _ => mkVector3 7 8 9
                           end)
                 (fun _ => false) (fun _ _ _ => 0%float)
                 (fun e => Some match e with
                                | Player => mkVector3 3 4 50
                                | Vehicle _ => mkVector3 7 8 9
                                end))
           (mkNoClipSystem true default_config (mkState 5 6 7 2)
              default_controls (Some (CameraObj 1)) (Some (Vehicle 42)))
           (CameraObj 1) (Vehicle 42)).
  - reflexivity.
  - reflexivity.
  - intros []; reflexivity.
Defined.

Lemma accelerate_n_saturated (cfg : Config) (n : nat) (v : float) :
  ltb v (maxSpeed cfg) = false -> accelerate_n cfg n v = v.
Proof.
  intros H. induction n as [|n IH]; cbn; [reflexivity|].
  unfold accelerate at 1. rewrite H. exact IH.
Qed.

(** X8.  Saturation: an axis whose speed is not below [maxSpeed] keeps
    exactly that speed for as many consecutive ticks as it is held. *)
Theorem saturated_axis_keeps_speed (axis : Axis) (frames : list (Event * Mp))
    (self : NoClipSystem) :
  isActive self = true ->
  camera self <> None ->
  targetEntity self <> None ->
  held_ticks axis (config self) (controls self) (lastUpdate (state self)) frames ->
  ltb (axis_get axis (state self)) (maxSpeed (config self)) = false ->
  exists self' calls,
    run frames self = Some (self', calls) /\
    axis_get axis (state self') = axis_get axis (state self).
Proof.
  intros Ha Hc Ht Hh Hs.
  destruct (@run_held_ticks axis frames self Ha Hc Ht Hh)
    as (s' & calls & R & _ & HA).
  exists s', calls. split; [exact R|].
  rewrite HA. now apply accelerate_n_saturated.
Qed.

Lemma saturated_axis_keeps_speed_witness :
  let self := mkNoClipSystem true default_config (mkState 2.0 8.1712843378407669 2.0 57)
                default_controls (Some (CameraObj 1)) (Some Player) in
  exists self' calls,
    run (frames_holding [0x23%Z] 57 5) self = Some (self', calls) /\
    axis_get AxStrafe (state self') = axis_get AxStrafe (state self).
Proof.
  apply (@saturated_axis_keeps_speed AxStrafe (frames_holding [0x23%Z] 57 5)
           (mkNoClipSystem true default_config (mkState 2.0 8.1712843378407669 2.0 57)
              default_controls (Some (CameraObj 1)) (Some Player))).
  - reflexivity.
  - discriminate.
  - discriminate.
  - apply frames_holding_held. reflexivity.
  - reflexivity.
Defined.

Lemma NoClipSystem_ext (s a b : NoClipSystem) :
  same_session s a -> same_session s b -> state a = state b -> a = b.
Proof.
  destruct s, a, b. unfold same_session. cbn.
  intros (-> & -> & -> & -> & ->) (-> & -> & -> & -> & ->) ->.
  reflexivity.
Qed.

(** X9.  What a tick does to the object (the axis speeds) does not
    depend on the position read, on the camera direction or on the
    speed selected by the FAST and SLOW modifiers: these only enter the
    position that is written. *)
Theorem handleMovement_object_independent (mp : Mp) (self : NoClipSystem)
    (pos pos' direction direction' : Vector3) (speed speed' : float) :
  fst (handleMovement mp self pos direction speed)
  = fst (handleMovement mp self pos' direction' speed').
Proof.
  destruct (handleMovement_self mp self pos direction speed) as [S1 E1].
  destruct (handleMovement_self mp self pos' direction' speed') as [S2 E2].
  apply (NoClipSystem_ext S1 S2). now rewrite E1, E2.
Qed.

(** X10.  A tick reads the position of [this.targetEntity], moves it by
    the three handlers, and makes one position write, addressed to
    [this.targetEntity] if the player is in a vehicle at that moment
    and to the local player otherwise, even when the target is a
    vehicle the player has left. *)
Theorem tick_write (mp : Mp) (self : NoClipSystem) (cam : Camera) (tgt : Entity) :
  camera self = Some cam ->
  targetEntity self = Some tgt ->
  let p := snd (handleMovement mp self (position mp tgt) (getDirection mp cam)
                  (getCurrentSpeed mp self)) in
  option_map snd (update mp self)
  = Some [SetCoordsNoOffset (if isPlayerInVehicle mp then tgt else Player)
                            (x p) (y p) (z p)].
Proof.
  intros Hc Ht.
  destruct (update_self mp self Hc Ht) as (s' & p & U & -> & _).
  cbn. rewrite U. reflexivity.
Qed.

Lemma tick_write_witness :
  let mp := mkMp 9 None (fun _ => mkVector3 1 0 0) (Some 0%Z)
                 (fun e => match e with
                           | Player => mkVector3 3 4 50
                           | Vehicle _ => mkVector3 7 8 9
                           end)
                 (fun id => Z.eqb id 0x141) (fun _ _ _ => 0%float)
                 (fun e => Some match e with
                                | Player => mkVector3 3 4 50
                                | Vehicle _ => mkVector3 7 8 9
                                end) in
  let self := mkNoClipSystem true default_config (mkState 2 2 2 2)
                default_controls (Some (CameraObj 1)) (Some (Vehicle 42)) in
  option_map snd (update mp self)
  = Some [SetCoordsNoOffset Player 7 8 (add 9 (mul (mul 2 1.025) 0.2))].
Proof.
  apply (@tick_write
           (mkMp 9 None (fun _ => mkVector3 1 0 0) (Some 0%Z)
                 (fun e => match e with
                           | Player => mkVector3 3 4 50
                           | Vehicle _ => mkVector3 7 8 9
                           end)
                 (fun id => Z.eqb id 0x141) (fun _ _ _ => 0%float)
                 (fun e => Some match e with
                                | Player => mkVector3 3 4 50
                                | Vehicle _ => mkVector3 7 8 9
                                end))
           (mkNoClipSystem true default_config (mkState 2 2 2 2)
              default_controls (Some (CameraObj 1)) (Some (Vehicle 42)))
           (CameraObj 1) (Vehicle 42));
    reflexivity.
Defined.

(** ** enable and disable *)

(** X11.  The target resolver never answers null: it answers the
    vehicle when the player has a vehicle whose handle is not 0, and
    the local player otherwise (no vehicle, or a vehicle with handle
    0). *)
Theorem getTargetEntity_cases (mp : Mp) :
  getTargetEntity mp
  = Some (match local_vehicle mp with
          | Some h => if Z.eqb h 0 then Player else Vehicle h
          | None => Player
          end).
Proof.
  unfold getTargetEntity, isPlayerInVehicle.
  destruct (local_vehicle mp) as [h|]; [|reflexivity].
  destruct (Z.eqb h 0); reflexivity.
Qed.

(** X12.  When the camera is acquired, [enable] stores the camera and
    the resolved entity, freezes that entity and switches its collision
    off, in this order after the camera request, and changes nothing
    else: [isActive] and the axis speeds are as before. *)
Theorem enable_success (mp : Mp) (self : NoClipSystem) (cam : Camera) :
  cameras_new mp = Some cam ->
  let e := match local_vehicle mp with
           | Some h => if Z.eqb h 0 then Player else Vehicle h
           | None => Player
           end in
  enable mp self
  = (set_camera (Some cam) (set_targetEntity (Some e) self),
     [CamerasNew; FreezePosition e true; SetCollision e false false]).
Proof.
  intros Hc. unfold enable, enable_with, getTargetEntity, isPlayerInVehicle.
  cbn. rewrite Hc.
  destruct (local_vehicle mp) as [h|]; [|reflexivity].
  destruct (Z.eqb h 0); reflexivity.
Qed.

Lemma enable_success_witness :
  let mp := host 0 (Some (CameraObj 3)) (Some 42%Z) [] in
  let self := set_isActive true (new_NoClipSystem 0) in
  enable mp self
  = (set_camera (Some (CameraObj 3)) (set_targetEntity (Some (Vehicle 42)) self),
     [CamerasNew; FreezePosition (Vehicle 42) true;
      SetCollision (Vehicle 42) false false]).
Proof.
  apply (@enable_success (host 0 (Some (CameraObj 3)) (Some 42%Z) [])
           (set_isActive true (new_NoClipSystem 0)) (CameraObj 3)).
  reflexivity.
Defined.

(** X13.  [enable] never touches the axis speeds, the timestamp, the
    configuration or the controls, whether it succeeds or not, and the
    flag it leaves is the old flag if the camera was acquired and false
    if not. *)
Theorem enable_keeps_movement_state (mp : Mp) (self : NoClipSystem) :
  state (fst (enable mp self)) = state self /\
  config (fst (enable mp self)) = config self /\
  controls (fst (enable mp self)) = controls self /\
  isActive (fst (enable mp self)) = isActive self && truthy (cameras_new mp).
Proof.
  unfold enable, enable_with. cbn.
  destruct (cameras_new mp) as [cam|]; cbn.
  - destruct (getTargetEntity mp) as [tgt|];
      [destruct (isPlayerInVehicle mp)|]; cbn;
      rewrite andb_true_r; repeat split.
  - rewrite andb_false_r. repeat split.
Qed.

(** X14.  [disable] is idempotent: a second [disable] in a row makes no
    host call and leaves the object as the first one left it. *)
Theorem disable_idempotent (mp mp' : Mp) (self : NoClipSystem) :
  disable mp' (fst (disable mp self)) = (fst (disable mp self), []).
Proof.
  destruct self as [act cfg st ks cam tgt]. reflexivity.
Qed.

(** X15.  [disable] chooses whom to restore by the occupancy at that
    moment, not by the stored target.  If [enable] froze a vehicle and
    the player has left it when [disable] runs, [disable] unfreezes the
    local player, restores its collision and ground-snaps it if its
    position is read, and addresses no call to the vehicle: the vehicle
    is left as [enable] put it. *)
Theorem disable_after_leaving_vehicle (mp mp' : Mp) (self : NoClipSystem)
    (h : Z) (cam : Camera) :
  local_vehicle mp = Some h ->
  h <> 0%Z ->
  cameras_new mp = Some cam ->
  isPlayerInVehicle mp' = false ->
  snd (enable mp self)
  = [CamerasNew; FreezePosition (Vehicle h) true;
     SetCollision (Vehicle h) false false] /\
  snd (disable mp' (fst (enable mp self)))
  = FreezePosition Player false :: SetCollision Player true true
    :: match entity_position mp' Player with
       | Some p =>
           [GetGroundZ (x p) (y p) (z p);
            SetCoordsNoOffset Player (x p) (y p)
              (getGroundZFor3dCoord mp' (x p) (y p) (z p))]
       | None => []
       end /\
  forall c, In c (snd (disable mp' (fst (enable mp self)))) ->
            call_entity c <> Some (Vehicle h).
Proof.
  intros Hv Hh Hc Hout. apply Z.eqb_neq in Hh.
  unfold enable, enable_with, getTargetEntity, isPlayerInVehicle.
  cbn. rewrite Hc, Hv, Hh. cbn. split; [reflexivity|].
  unfold disable, setEntityToGround. cbn. rewrite Hout. cbn.
  destruct (entity_position mp' Player) as [p|]; (split; [reflexivity|]).
  - intros c [<-|[<-|[<-|[<-|[]]]]]; discriminate.
  - intros c [<-|[<-|[]]]; discriminate.
Qed.

Lemma disable_after_leaving_vehicle_witness :
  let mp := host 0 (Some (CameraObj 1)) (Some 42%Z) [] in
  let mp' := host 30 None None [] in
  let self := set_isActive true (new_NoClipSystem 0) in
  snd (enable mp self)
  = [CamerasNew; FreezePosition (Vehicle 42) true;
     SetCollision (Vehicle 42) false false] /\
  snd (disable mp' (fst (enable mp self)))
  = [FreezePosition Player false; SetCollision Player true true;
     GetGroundZ 0 0 0; SetCoordsNoOffset Player 0 0 0] /\
  forall c, In c (snd (disable mp' (fst (enable mp self)))) ->
            call_entity c <> Some (Vehicle 42).
Proof.
  apply (@disable_after_leaving_vehicle
           (host 0 (Some (CameraObj 1)) (Some 42%Z) [])
           (host 30 None None [])
           (set_isActive true (new_NoClipSystem 0)) 42%Z (CameraObj 1)).
  - reflexivity.
  - discriminate.
  - reflexivity.
  - reflexivity.
Defined.

(** ** Objects reached from the constructor *)

Lemma enable_fields (mp : Mp) (self : NoClipSystem) :
  state (fst (enable mp self)) = state self /\
  config (fst (enable mp self)) = config self /\
  controls (fst (enable mp self)) = controls self.
Proof.
  unfold enable, enable_with. cbn.
  destruct (cameras_new mp) as [cam|]; cbn; [|repeat split].
  destruct (getTargetEntity mp) as [tgt|];
    [destruct (isPlayerInVehicle mp)|]; repeat split.
Qed.

Lemma toggle_constructed_inv (t : Z) (mp : Mp) (self : NoClipSystem) :
  constructed_inv t self -> constructed_inv t (fst (toggle mp self)).
Proof.
  intros (Hcfg & Hks & Ht & Hb).
  unfold toggle. cbn. destruct (isActive self) eqn:Ha; cbn.
  - unfold constructed_inv. cbn. rewrite Hcfg.
    repeat split; trivial. intros _ []; reflexivity.
  - destruct (enable_fields mp (set_isActive true self)) as (Es & Ec & Ek).
    unfold constructed_inv. rewrite Es, Ec, Ek. cbn.
    repeat split; trivial. intros _. now apply Hb.
Qed.

Lemma render_constructed_inv (t : Z) (mp : Mp) (self self' : NoClipSystem)
    (calls : list Call) :
  constructed_inv t self ->
  render mp self = Some (self', calls) ->
  constructed_inv t self'.
Proof.
  intros (Hcfg & Hks & Ht & Hb) R.
  destruct (shouldUpdate mp self) eqn:E.
  - destruct (render_tick mp self E) as (s' & c' & R' & HS & HL & _).
    rewrite R in R'. injection R' as <- <-.
    apply shouldUpdate_true in E. destruct E as (Ha & _ & _ & Hclock).
    destruct HS as (Sa & Sc & Sk & _).
    unfold constructed_inv. rewrite Sc, Sk, Sa, HL, Ha.
    rewrite Hcfg in Hclock. cbn in Hclock.
    repeat split; trivial; [lia | discriminate].
  - unfold render in R. rewrite E in R. injection R as <- <-.
    repeat split; trivial.
Qed.

Lemma run_constructed_inv (t : Z) (evs : list (Event * Mp)) :
  forall self self' calls,
    constructed_inv t self ->
    run evs self = Some (self', calls) ->
    constructed_inv t self'.
Proof.
  induction evs as [|[ev mp] rest IH]; intros self self' calls Hi R; cbn in R.
  - injection R as <- <-. exact Hi.
  - destruct (step ev mp self) as [[s1 c1]|] eqn:E1; [|discriminate].
    destruct (run rest s1) as [[s2 c2]|] eqn:E2; [|discriminate].
    injection R as <- <-.
    apply (IH s1 s2 c2); [|exact E2].
    destruct ev; cbn in E1.
    + injection E1 as E1.
      replace s1 with (fst (toggle mp self)) by now rewrite E1.
      now apply toggle_constructed_inv.
    + eapply render_constructed_inv; eauto.
Qed.

(** X16.  Whatever sequence of TOGGLE presses and render events an
    object has been through since its construction at time [t], its
    configuration and controls are the constructor's, its timestamp is
    not before [t], and whenever it is inactive its three axis speeds
    are at [baseSpeed]. *)
Theorem reachable_constructed_inv (t : Z) (evs : list (Event * Mp))
    (self : NoClipSystem) (calls : list Call) :
  run evs (new_NoClipSystem t) = Some (self, calls) ->
  config self = default_config /\
  controls self = default_controls /\
  (t <= lastUpdate (state self))%Z /\
  (isActive self = false ->
   forall a, axis_get a (state self) = baseSpeed default_config).
Proof.
  apply run_constructed_inv.
  unfold constructed_inv. cbn.
  repeat split; [lia|]. intros _ []; reflexivity.
Qed.

Lemma reachable_constructed_inv_witness :
  let self := mkNoClipSystem false default_config (mkState 2.0 2.0 2.0 1)
                default_controls None None in
  config self = default_config /\
  controls self = default_controls /\
  (0 <= lastUpdate (state self))%Z /\
  (isActive self = false ->
   forall a, axis_get a (state self) = baseSpeed default_config).
Proof.
  apply (@reachable_constructed_inv 0
           [(KeyToggle, host 0 (Some (CameraObj 1)) None []);
            (Render, host 1 None None [0x20%Z]);
            (KeyToggle, host 2 None None [])]
           (mkNoClipSystem false default_config (mkState 2.0 2.0 2.0 1)
              default_controls None None)
           [CamerasNew; FreezePosition Player true; SetCollision Player false false;
            SetCoordsNoOffset Player (add 0 (mul 1 (mul (mul 2.0 1.025) 0.2))) 0 0;
            FreezePosition Player false; SetCollision Player true true;
            GetGroundZ 0 0 0; SetCoordsNoOffset Player 0 0 0]).
  vm_compute. reflexivity.
Defined.

(** X17.  The curve the code follows: on an active object, [n]
    consecutive ticks with a control of an axis held apply
    [accelerateAxis] to that axis [n] times (each time multiplying by
    [acceleration] if the speed before the tick is below [maxSpeed] and
    leaving it otherwise), for every configuration, and change nothing
    else but the other speeds and the timestamp. *)
Theorem held_axis_curve (axis : Axis) (frames : list (Event * Mp))
    (self : NoClipSystem) :
  isActive self = true ->
  camera self <> None ->
  targetEntity self <> None ->
  held_ticks axis (config self) (controls self) (lastUpdate (state self)) frames ->
  exists self' calls,
    run frames self = Some (self', calls) /\
    same_session self self' /\
    axis_get axis (state self')
    = accelerate_n (config self) (length frames) (axis_get axis (state self)).
Proof.
  intros Ha Hc Ht Hh.
  exact (@run_held_ticks axis frames self Ha Hc Ht Hh).
Qed.

Lemma held_axis_curve_witness :
  let self := fst (toggle (host 0 (Some (CameraObj 1)) None [])
                          (new_NoClipSystem 0)) in
  exists self' calls,
    run (frames_holding [0x141%Z] 0 3) self = Some (self', calls) /\
    same_session self self' /\
    axis_get AxVertical (state self')
    = accelerate_n (config self) (length (frames_holding [0x141%Z] 0 3))
        (axis_get AxVertical (state self)).
Proof.
  apply (@held_axis_curve AxVertical (frames_holding [0x141%Z] 0 3)
           (fst (toggle (host 0 (Some (CameraObj 1)) None [])
                        (new_NoClipSystem 0)))).
  - reflexivity.
  - discriminate.
  - discriminate.
  - apply frames_holding_held. reflexivity.
Defined.
